(** * Metal Prices Dashboard (app.py): a shallow embedding and its properties

    The embedding follows [src/app.py]: the session state (current prices,
    price history, holdings), the spreadsheet importer
    [load_prices_from_excel] with the part of [main] that consumes its
    result, [update_price_history], the sorted copy used by
    [create_price_chart], [calculate_portfolio_value] and the CSV export.

    Python floats are IEEE-754 binary64 numbers: they are modelled by Rocq's
    primitive floats.  Calendar dates are [datetime.date] values, compared
    chronologically.  The clock ([datetime.now()]) is an explicit argument. *)

From Stdlib Require Import List String Ascii Bool Arith Lia.
From Stdlib Require Import Floats DecimalString DecimalNat Sorted Permutation.
Import ListNotations.

Local Open Scope string_scope.
Local Open Scope nat_scope.
Local Open Scope list_scope.

(** ** Calendar dates *)

Record Date : Type := mkDate { year : nat; month : nat; day : nat }.

Definition Date_eqb (a b : Date) : bool :=
  (year a =? year b) && (month a =? month b) && (day a =? day b).

(** [a < b] on [datetime.date]: chronological, that is lexicographic on
    (year, month, day). *)
Definition Date_ltb (a b : Date) : bool :=
  (year a <? year b)
  || ((year a =? year b)
      && ((month a <? month b)
          || ((month a =? month b) && (day a <? day b)))).

Definition Date_leb (a b : Date) : bool := negb (Date_ltb b a).

Definition Date_lt (a b : Date) : Prop := Date_ltb a b = true.

(** [str(d)], that is [d.isoformat()]: [YYYY-MM-DD], zero padded. *)
Fixpoint zeros (k : nat) : string :=
  match k with
  | O => ""
  | S k' => String "0" (zeros k')
  end.

Definition zfill (width : nat) (n : nat) : string :=
  let s := NilZero.string_of_uint (Nat.to_uint n) in
  (zeros (width - String.length s) ++ s)%string.

Definition isoformat (d : Date) : string :=
  (zfill 4 (year d) ++ "-" ++ zfill 2 (month d) ++ "-" ++ zfill 2 (day d))%string.

(** ** Metals and the price dictionaries *)

Inductive Metal : Type := gold | silver | platinum | palladium.

(** The literal list [['gold', 'silver', 'platinum', 'palladium']]. *)
Definition metals : list Metal := [gold; silver; platinum; palladium].

Definition Metal_eqb (a b : Metal) : bool :=
  match a, b with
  | gold, gold | silver, silver | platinum, platinum
  | palladium, palladium => true
  | _, _ => false
  end.

(** The dictionary key of a metal, and [key.capitalize()]. *)
Definition metal_key (m : Metal) : string :=
  match m with
  | gold => "gold"
  | silver => "silver"
  | platinum => "platinum"
  | palladium => "palladium"
  end.

Definition capitalize (m : Metal) : string :=
  match m with
  | gold => "Gold"
  | silver => "Silver"
  | platinum => "Platinum"
  | palladium => "Palladium"
  end.

(** A dictionary with exactly the four metal keys: [metal_prices] and
    [portfolio_holdings]. *)
Record Quad : Type := mkQuad
  { q_gold : float; q_silver : float; q_platinum : float; q_palladium : float }.

Definition Prices := Quad.
Definition Holdings := Quad.

(** [d[metal]] *)
Definition get (d : Quad) (m : Metal) : float :=
  match m with
  | gold => q_gold d
  | silver => q_silver d
  | platinum => q_platinum d
  | palladium => q_palladium d
  end.

(** [d[metal] = v] *)
Definition set (d : Quad) (m : Metal) (v : float) : Quad :=
  match m with
  | gold => mkQuad v (q_silver d) (q_platinum d) (q_palladium d)
  | silver => mkQuad (q_gold d) v (q_platinum d) (q_palladium d)
  | platinum => mkQuad (q_gold d) (q_silver d) v (q_palladium d)
  | palladium => mkQuad (q_gold d) (q_silver d) (q_platinum d) v
  end.

(** The dictionary built by the importer: a subset of the metal keys, in
    insertion order. *)
Definition PriceMap := list (Metal * float).

Fixpoint dict_set (d : PriceMap) (m : Metal) (v : float) : PriceMap :=
  match d with
  | [] => [(m, v)]
  | (k, w) :: d' =>
      if Metal_eqb k m then (k, v) :: d' else (k, w) :: dict_set d' m v
  end.

Fixpoint dict_get (d : PriceMap) (m : Metal) : option float :=
  match d with
  | [] => None
  | (k, w) :: d' => if Metal_eqb k m then Some w else dict_get d' m
  end.

(** [store.update(prices)] *)
Definition dict_update (store : Prices) (prices : PriceMap) : Prices :=
  fold_left (fun s kv => set s (fst kv) (snd kv)) prices store.

(** The seeded constants of [initialize_session_state] and of the reset
    button. *)
Definition default_prices : Prices :=
  mkQuad 2000%float 25%float 950%float 1800%float.

Definition default_holdings : Holdings :=
  mkQuad 0%float 0%float 0%float 0%float.

(** ** The price history table *)

(** One row of the [price_history] data frame: the [date] column and the
    four metal columns. *)
Record HistoryRow : Type := mkRow { date : Date; values : Prices }.

Definition History := list HistoryRow.

Definition dates (h : History) : list Date := map date h.

(** ** Session state *)

Record State : Type := mkState
  { metal_prices : Prices;
    price_history : History;
    portfolio_holdings : Holdings }.

(** The one-row frame built from the clock and the current prices, as in
    [initialize_session_state], the new row of [update_price_history] and
    the clear button. *)
Definition one_row (now : Date) (p : Prices) : HistoryRow :=
  mkRow now (mkQuad (get p gold) (get p silver) (get p platinum) (get p palladium)).

(** [initialize_session_state]: a session that already holds its three keys
    is kept; a new one is seeded. *)
Definition initialize_session_state (now : Date) (s : option State) : State :=
  match s with
  | Some st => st
  | None =>
      mkState default_prices [one_row now default_prices] default_holdings
  end.

(** [update_price_history]: [.loc[mask, metal] = v] writes [v] in column
    [metal] of every row selected by the boolean mask. *)
Definition loc_set (mask : list bool) (m : Metal) (v : float) (h : History)
  : History :=
  map (fun br : bool * HistoryRow =>
         if fst br then mkRow (date (snd br)) (set (values (snd br)) m v)
         else snd br)
      (combine mask h).

Definition update_history (today : Date) (current_prices : Prices) (h : History)
  : History :=
  if negb (existsb (fun d => Date_eqb today d) (dates h)) then
    h ++ [one_row today current_prices]
  else
    let mask := map (fun r => Date_eqb (date r) today) h in
    fold_left (fun df metal => loc_set mask metal (get current_prices metal) df)
              metals h.

Definition update_price_history (today : Date) (st : State) : State :=
  mkState (metal_prices st)
          (update_history today (metal_prices st) (price_history st))
          (portfolio_holdings st).

(** The "Reset All Prices" and "Clear History" buttons of [main]. *)
Definition reset_all_prices (st : State) : State :=
  mkState default_prices (price_history st) (portfolio_holdings st).

Definition clear_history (now : Date) (st : State) : State :=
  mkState (metal_prices st) [one_row now (metal_prices st)]
          (portfolio_holdings st).

(** ** The spreadsheet importer *)

(** Python expressions that may raise: the value, or the text [str(e)] of
    the exception. *)
Inductive result (A : Type) : Type :=
| Ok (a : A)
| Raise (msg : string).

Arguments Ok {A} a.
Arguments Raise {A} msg.

Definition bind {A B : Type} (r : result A) (k : A -> result B) : result B :=
  match r with
  | Ok a => k a
  | Raise msg => Raise msg
  end.

Notation "x <- r ;; k" := (bind r (fun x => k))
  (at level 61, r at next level, right associativity).

(** A cell of the frame returned by [pd.read_excel(..., header=None)]: a
    number (a blank cell is read as NaN), a text, a boolean, or an object of
    another type (a [datetime], a [time]), given by its type name. *)
Inductive Cell : Type :=
| CNum (f : float)
| CStr (s : string)
| CBool (b : bool)
| COther (tyname : string).

(** [pd.notna(c)] *)
Definition notna (c : Cell) : bool :=
  match c with
  | CNum f => negb (PrimFloat.is_nan f)
  | _ => true
  end.

Record DataFrame : Type := mkFrame
  { nrows : nat;                       (* df.shape[0] *)
    ncols : nat;                       (* df.shape[1] *)
    cells : nat -> nat -> Cell }.

(** [df.iloc[r, c]]: raises [IndexError] outside the frame. *)
Definition iloc (df : DataFrame) (r c : nat) : result Cell :=
  if (r <? nrows df) && (c <? ncols df) then Ok (cells df r c)
  else Raise "single positional indexer is out-of-bounds".

Definition layout_message : string :=
  "Excel file doesn't have enough rows/columns to read from D4:D7".

Definition read_error_prefix : string := "Error reading Excel file: ".

Section Importer.

(** [float(s)] on a Python [str]: the parsed number, or the text of the
    [ValueError].  The parser is Python's own and is taken as given. *)
Variable str_to_float : string -> result float.

(** [float(c)] *)
Definition py_float (c : Cell) : result float :=
  match c with
  | CNum f => Ok f
  | CStr s => str_to_float s
  | CBool b => Ok (if b then 1%float else 0%float)
  | COther tyname =>
      Raise ("float() argument must be a string or a real number, not '"
             ++ tyname ++ "'")%string
  end.

(** One of the four blocks
    [if pd.notna(df.iloc[r, 3]): prices[metal] = float(df.iloc[r, 3])]. *)
Definition stage (df : DataFrame) (r : nat) (metal : Metal) (prices : PriceMap)
  : result PriceMap :=
  c <- iloc df r 3 ;;
  if notna c then
    c' <- iloc df r 3 ;;
    v <- py_float c' ;;
    Ok (dict_set prices metal v)
  else Ok prices.

(** The body of the [try] block; [file] is the outcome of
    [pd.read_excel(uploaded_file, header=None)]. *)
Definition load_prices_body (file : result DataFrame)
  : result (option PriceMap * option string) :=
  df <- file ;;
  if (7 <=? nrows df) && (4 <=? ncols df) then
    prices <- stage df 3 gold [] ;;
    prices <- stage df 4 silver prices ;;
    prices <- stage df 5 platinum prices ;;
    prices <- stage df 6 palladium prices ;;
    Ok (Some prices, None)
  else Ok (None, Some layout_message).

(** [load_prices_from_excel]: the pair [(prices, error)]. *)
Definition load_prices_from_excel (file : result DataFrame)
  : option PriceMap * option string :=
  match load_prices_body file with
  | Ok r => r
  | Raise e => (None, Some (read_error_prefix ++ e)%string)
  end.

(** What the sidebar shows after an upload. *)
Inductive Notice : Type :=
| Success (loaded : PriceMap)   (* st.success, then one line per item *)
| Error (error : string).       (* st.error(f"... {error}") *)

(** Truth value of [prices] ([None] or a dict) and of [error] ([None] or a
    str). *)
Definition dict_truthy (p : option PriceMap) : bool :=
  match p with
  | Some (_ :: _) => true
  | _ => false
  end.

Definition str_truthy (e : option string) : bool :=
  match e with
  | Some (String _ _) => true
  | _ => false
  end.

(** The upload block of [main]: [uploaded_file] is [None] or a file. *)
Definition handle_upload (uploaded_file : option (result DataFrame)) (st : State)
  : State * option Notice :=
  match uploaded_file with
  | None => (st, None)
  | Some file =>
      let '(prices, error) := load_prices_from_excel file in
      if dict_truthy prices then
        match prices with
        | Some p =>
            (mkState (dict_update (metal_prices st) p)
                     (price_history st) (portfolio_holdings st),
             Some (Success p))
        | None => (st, None)
        end
      else if str_truthy error then
        match error with
        | Some e => (st, Some (Error e))
        | None => (st, None)
        end
      else (st, None)
  end.

End Importer.

(** ** The chart's sorted copy *)

(** [df.sort_values('date')] returns a new frame, ascending by date.  It is
    modelled by an insertion sort; when the dates are pairwise distinct the
    sorted order does not depend on the sorting algorithm. *)
Fixpoint insert_row (r : HistoryRow) (l : History) : History :=
  match l with
  | [] => [r]
  | x :: l' =>
      if Date_leb (date r) (date x) then r :: x :: l'
      else x :: insert_row r l'
  end.

Definition sort_values (h : History) : History :=
  fold_right insert_row [] h.

Record Trace : Type := mkTrace
  { t_name : string;
    t_x : list Date;
    t_y : list float;
    t_row : nat;
    t_col : nat }.

Definition positions : list (nat * nat) := [(1, 1); (1, 2); (2, 1); (2, 2)].

(** The series plotted by [create_price_chart]: the sorted copy of the
    history. *)
Definition chart_series (st : State) : History :=
  sort_values (price_history st).

(** [create_price_chart]: the session state it leaves, and the figure (one
    trace per metal) or [None]. *)
Definition create_price_chart (st : State) : State * option (list Trace) :=
  let df := chart_series st in
  if List.length df <=? 1 then (st, None)
  else
    (st,
     Some (map (fun mp : Metal * (nat * nat) =>
                  mkTrace (capitalize (fst mp))
                          (map date df)
                          (map (fun r => get (values r) (fst mp)) df)
                          (fst (snd mp)) (snd (snd mp)))
               (combine metals positions))).

(** ** The portfolio calculator *)

Record PortfolioLine : Type := mkLine
  { line_metal : string;      (* 'Metal' *)
    line_holding : float;     (* 'Holdings (oz)' *)
    line_price : float;       (* 'Price ($/oz)' *)
    line_value : float }.     (* 'Value ($)' *)

(** One turn of the loop over the metals. *)
Definition portfolio_step (holdings : Holdings) (prices : Prices)
    (acc : float * list PortfolioLine) (metal : Metal)
  : float * list PortfolioLine :=
  let holding := get holdings metal in
  let price := get prices metal in
  let value := PrimFloat.mul holding price in
  let total_value := PrimFloat.add (fst acc) value in
  if PrimFloat.ltb 0%float holding then
    (total_value, snd acc ++ [mkLine (capitalize metal) holding price value])
  else (total_value, snd acc).

(** [calculate_portfolio_value]; the accumulator starts at the integer 0,
    which the first addition converts to the float 0.0. *)
Definition calculate_portfolio_value (st : State) : float * list PortfolioLine :=
  fold_left (portfolio_step (portfolio_holdings st) (metal_prices st))
            metals (0%float, []).

(** ** The CSV export *)

Section CsvExport.

(** How [to_csv] writes a float64 field; pandas' formatting is taken as
    given. *)
Variable csv_float : float -> string.

Definition csv_header : string := "date,gold,silver,platinum,palladium".

Definition join_comma (fields : list string) : string :=
  String.concat "," fields.

Definition csv_row (r : HistoryRow) : string :=
  join_comma (isoformat (date r)
              :: map (fun m => csv_float (get (values r) m)) metals).

(** The lines of [price_history.to_csv(index=False)], in order. *)
Definition csv_lines (h : History) : list string :=
  csv_header :: map csv_row h.

Definition newline : string := String (ascii_of_nat 10) EmptyString.

(** [st.session_state.price_history.to_csv(index=False)] *)
Definition to_csv (st : State) : string :=
  String.concat "" (map (fun l => (l ++ newline)%string)
                        (csv_lines (price_history st))).

End CsvExport.

(** ** Sessions: the actions of [main] that change the session state *)

(** The four assignments [st.session_state.metal_prices[metal] = ..._price]
    that write the number inputs back. *)
Definition write_back (inputs : Prices) (st : State) : State :=
  mkState
    (set (set (set (set (metal_prices st) gold (get inputs gold))
                   silver (get inputs silver))
              platinum (get inputs platinum))
         palladium (get inputs palladium))
    (price_history st) (portfolio_holdings st).

Inductive Action : Type :=
| Upload (file : result DataFrame)
| UpdateHistory (today : Date)
| ResetPrices
| ClearHistory (now : Date)
| EditPrices (inputs : Prices).

Section Session.

Variable str_to_float : string -> result float.

Definition step (st : State) (a : Action) : State :=
  match a with
  | Upload file => fst (handle_upload str_to_float (Some file) st)
  | UpdateHistory today => update_price_history today st
  | ResetPrices => reset_all_prices st
  | ClearHistory now => clear_history now st
  | EditPrices inputs => write_back inputs st
  end.

(** The state after a sequence of actions in a session opened at [now]. *)
Definition run (now : Date) (actions : list Action) : State :=
  fold_left step actions (initialize_session_state now None).

End Session.

(** The row that [update_price_history] leaves for [today]. *)
Definition overwrite (today : Date) (current_prices : Prices) (r : HistoryRow)
  : HistoryRow :=
  if Date_eqb (date r) today then mkRow (date r) current_prices else r.

(** The rows of a history recorded for [d], and the other ones. *)
Definition rows_of (d : Date) (h : History) : History :=
  filter (fun r => Date_eqb (date r) d) h.

Definition rows_not_of (d : Date) (h : History) : History :=
  filter (fun r => negb (Date_eqb (date r) d)) h.

(** ** From the spreadsheet to the frame *)




(** ** The portfolio panel of [main] *)

(** What the right column shows: the breakdown table with the total, or the
    hint to enter holdings. *)
Inductive PortfolioView : Type :=
| ShowPortfolio (rows : list PortfolioLine) (total : float)
| ShowHint.

(** The portfolio block of [main]: the four holdings inputs are stored in
    the session, then [calculate_portfolio_value] is called and its
    breakdown, when it is not empty, is shown with the total. *)
Definition portfolio_panel (inputs : Holdings) (st : State)
  : State * PortfolioView :=
  let st1 :=
    mkState (metal_prices st) (price_history st)
            (mkQuad (get inputs gold) (get inputs silver)
                    (get inputs platinum) (get inputs palladium)) in
  match snd (calculate_portfolio_value st1) with
  | _ :: _ =>
      (st1, ShowPortfolio (snd (calculate_portfolio_value st1))
                          (fst (calculate_portfolio_value st1)))
  | [] => (st1, ShowHint)
  end.

(** ** Clocks that never go back *)

(** The dates read from the clock by the actions of a session, each one not
    earlier than the one read before it; [t] is the last date read. *)
Fixpoint clock_monotone (t : Date) (actions : list Action) : bool :=
  match actions with
  | [] => true
  | UpdateHistory d :: rest => Date_leb t d && clock_monotone d rest
  | ClearHistory d :: rest => Date_leb t d && clock_monotone d rest
  | _ :: rest => clock_monotone t rest
  end.

(** The history is ascending and holds no date later than the last date
    read from the clock. *)
Definition ascending_until (t : Date) (h : History) : Prop :=
  StronglySorted Date_lt (dates h)
  /\ Forall (fun x => Date_leb x t = true) (dates h).

(** ** Sample data *)

Definition jan1 : Date := mkDate 2024 1 1.
Definition jan2 : Date := mkDate 2024 1 2.

Definition prices_a : Prices := mkQuad 2100%float 26%float 960%float 1750%float.
Definition prices_b : Prices := mkQuad 2150%float 27%float 940%float 1700%float.

(** A history whose rows were recorded on 2 January and then on 1 January. *)
Definition sample_history : History :=
  [mkRow jan2 default_prices; mkRow jan1 prices_a].

Definition sample_state : State :=
  mkState prices_b sample_history default_holdings.

(** The cells D4:D7 read by the importer, by metal. *)
Definition target_row (m : Metal) : nat :=
  match m with
  | gold => 3
  | silver => 4
  | platinum => 5
  | palladium => 6
  end.

Definition target_cell (df : DataFrame) (m : Metal) : Cell :=
  cells df (target_row m) 3.

(** The metals whose target cell is not blank, each with the float of its
    cell, in the order gold, silver, platinum, palladium. *)
Definition staged_prices (parser : string -> result float) (df : DataFrame)
  : PriceMap :=
  flat_map (fun m =>
              if notna (target_cell df m) then
                match py_float parser (target_cell df m) with
                | Ok v => [(m, v)]
                | Raise _ => []
                end
              else [])
           metals.

(** A text parser that accepts no text, to evaluate the importer on sheets
    whose texts are not numbers. *)
Definition reject_text (s : string) : result float :=
  Raise ("could not convert string to float: '" ++ s ++ "'")%string.

(** A sheet of [rows] x [cols] cells whose column D holds [column_d], the
    other cells being blank. *)
Definition sheet (rows cols : nat) (column_d : list Cell) : DataFrame :=
  mkFrame rows cols
          (fun r c => if c =? 3 then nth r column_d (CNum nan) else CNum nan).

Definition blank : Cell := CNum nan.

Definition short_sheet : DataFrame :=
  sheet 5 4 [blank; blank; blank; CNum 2500%float; CNum 30%float].


Definition partial_sheet : DataFrame :=
  sheet 7 4 [blank; blank; blank;
             CNum 2500%float; blank; CNum 1000%float; blank].

Definition negative_sheet : DataFrame :=
  sheet 7 4 [blank; blank; blank;
             CNum (-5)%float; CNum 30%float; CNum 1000%float; CNum 2200%float].


Definition blank_sheet : DataFrame := sheet 9 6 [].

(** D5 holds a text and D6 a time of day: both are refused by [float]. *)
Definition two_refused_sheet : DataFrame :=
  sheet 7 4 [blank; blank; blank;
             CNum 2500%float; CStr "unknown"; COther "datetime.time"; blank].

(** The cells of [partial_sheet] in a larger frame with other contents
    around them. *)
Definition busy_sheet : DataFrame :=
  mkFrame 12 8
          (fun r c =>
             if c =? 3 then
               nth r [CStr "Metal"; CStr "per oz"; blank;
                      CNum 2500%float; blank; CNum 1000%float; blank;
                      CStr "total"] (CStr "x")
             else CStr "note").

(** * Properties *)

(** ** Dates *)

Ltac nat_cases :=
  repeat match goal with
    | |- context [?a <? ?b] => destruct (Nat.ltb_spec a b)
    | |- context [?a =? ?b] => destruct (Nat.eqb_spec a b)
    | H : context [?a <? ?b] |- _ => destruct (Nat.ltb_spec a b)
    | H : context [?a =? ?b] |- _ => destruct (Nat.eqb_spec a b)
    end;
  simpl in *; try congruence; try lia.

Lemma Date_eqb_eq (a b : Date) : Date_eqb a b = true <-> a = b.
Proof.
  destruct a as [ya ma da], b as [yb mb db]; unfold Date_eqb; simpl.
  split.
  - intros H. nat_cases.
  - intros H. injection H as -> -> ->. now rewrite !Nat.eqb_refl.
Qed.

Lemma Date_eqb_refl (a : Date) : Date_eqb a a = true.
Proof. now apply Date_eqb_eq. Qed.

Lemma Date_eqb_sym (a b : Date) : Date_eqb a b = Date_eqb b a.
Proof.
  destruct (Date_eqb a b) eqn:E.
  - apply Date_eqb_eq in E. subst. now rewrite Date_eqb_refl.
  - destruct (Date_eqb b a) eqn:E'; [|reflexivity].
    apply Date_eqb_eq in E'. subst. now rewrite Date_eqb_refl in E.
Qed.

Lemma Date_eqb_neq (a b : Date) : Date_eqb a b = false <-> a <> b.
Proof.
  split.
  - intros E ->. now rewrite Date_eqb_refl in E.
  - intros N. destruct (Date_eqb a b) eqn:E; [|reflexivity].
    now apply Date_eqb_eq in E.
Qed.

Lemma Date_lt_trans (a b c : Date) : Date_lt a b -> Date_lt b c -> Date_lt a c.
Proof.
  destruct a as [ya ma da], b as [yb mb db], c as [yc mc dc].
  unfold Date_lt, Date_ltb; simpl. intros H1 H2. nat_cases.
Qed.

Lemma Date_lt_irrefl (a : Date) : ~ Date_lt a a.
Proof.
  destruct a as [ya ma da]. unfold Date_lt, Date_ltb; simpl. intros H. nat_cases.
Qed.

Lemma Date_leb_neq_lt (a b : Date) :
  Date_leb a b = true -> a <> b -> Date_lt a b.
Proof.
  destruct a as [ya ma da], b as [yb mb db].
  unfold Date_leb, Date_lt, Date_ltb; simpl. intros H N.
  nat_cases; exfalso; apply N; f_equal; lia.
Qed.

Lemma Date_leb_false_lt (a b : Date) : Date_leb a b = false -> Date_lt b a.
Proof.
  unfold Date_leb, Date_lt. now destruct (Date_ltb b a).
Qed.

(** ** Dictionaries *)

Lemma quad_eta (p : Quad) :
  mkQuad (get p gold) (get p silver) (get p platinum) (get p palladium) = p.
Proof. now destruct p. Qed.

Lemma one_row_eq (now : Date) (p : Prices) : one_row now p = mkRow now p.
Proof. unfold one_row. now rewrite quad_eta. Qed.

Lemma set_all (q p : Quad) :
  set (set (set (set q gold (get p gold)) silver (get p silver))
           platinum (get p platinum)) palladium (get p palladium) = p.
Proof. now destruct p, q. Qed.

(** ** The history log *)

Lemma existsb_dates (today : Date) (h : History) :
  existsb (fun d => Date_eqb today d) (dates h) = true <-> In today (dates h).
Proof.
  rewrite existsb_exists. split.
  - intros (d & Hin & E). apply Date_eqb_eq in E. now subst.
  - intros Hin. exists today. split; [assumption | apply Date_eqb_refl].
Qed.

Lemma fold_loc_set (p : HistoryRow -> bool) (cur : Prices) (h : History) :
  forall (ms : list Metal) (g : HistoryRow -> HistoryRow),
    fold_left (fun df metal => loc_set (map p h) metal (get cur metal) df)
              ms (map g h)
    = map (fun r =>
             if p r then
               mkRow (date (g r))
                     (fold_left (fun q m => set q m (get cur m)) ms (values (g r)))
             else g r) h.
Proof.
  induction ms as [|m ms IH]; intros g; simpl.
  - apply map_ext. intros r. destruct (p r); [|reflexivity]. now destruct (g r).
  - assert (Hstep : loc_set (map p h) m (get cur m) (map g h)
                    = map (fun r => if p r
                                    then mkRow (date (g r))
                                               (set (values (g r)) m (get cur m))
                                    else g r) h).
    { unfold loc_set. clear IH. induction h as [|r h IHh]; simpl.
      - reflexivity.
      - now rewrite IHh. }
    rewrite Hstep, IH. apply map_ext. intros r. now destruct (p r).
Qed.

Lemma update_history_absent (today : Date) (cur : Prices) (h : History) :
  ~ In today (dates h) ->
  update_history today cur h = h ++ [mkRow today cur].
Proof.
  intros Hn. unfold update_history.
  destruct (existsb (fun d => Date_eqb today d) (dates h)) eqn:E.
  - apply existsb_dates in E. contradiction.
  - simpl. now rewrite one_row_eq.
Qed.

Lemma update_history_present (today : Date) (cur : Prices) (h : History) :
  In today (dates h) ->
  update_history today cur h = map (overwrite today cur) h.
Proof.
  intros Hin. unfold update_history.
  apply existsb_dates in Hin. rewrite Hin. simpl negb. cbv iota zeta.
  pose proof (fold_loc_set (fun r => Date_eqb (date r) today) cur h metals
                           (fun r => r)) as H.
  rewrite map_id in H. rewrite H.
  apply map_ext. intros r. unfold overwrite.
  destruct (Date_eqb (date r) today); [|reflexivity].
  unfold metals. cbn [fold_left]. now rewrite set_all.
Qed.

Lemma date_overwrite (today : Date) (cur : Prices) (r : HistoryRow) :
  date (overwrite today cur r) = date r.
Proof. unfold overwrite. now destruct (Date_eqb (date r) today). Qed.

Lemma dates_overwrite (today : Date) (cur : Prices) (h : History) :
  dates (map (overwrite today cur) h) = dates h.
Proof.
  unfold dates. rewrite map_map. apply map_ext. intros r. apply date_overwrite.
Qed.

Lemma overwrite_absent (today : Date) (cur : Prices) (h : History) :
  ~ In today (dates h) -> map (overwrite today cur) h = h.
Proof.
  induction h as [|r h IH]; simpl; intros Hn; [reflexivity|].
  rewrite IH by tauto. f_equal. unfold overwrite.
  destruct (Date_eqb (date r) today) eqn:E; [|reflexivity].
  apply Date_eqb_eq in E. exfalso. apply Hn. now left.
Qed.

Lemma overwrite_idem (today : Date) (cur : Prices) (r : HistoryRow) :
  overwrite today cur (overwrite today cur r) = overwrite today cur r.
Proof.
  unfold overwrite at 2 3. destruct (Date_eqb (date r) today) eqn:E.
  - unfold overwrite. simpl. now rewrite E.
  - unfold overwrite. now rewrite E.
Qed.

Lemma dates_update_present (today : Date) (cur : Prices) (h : History) :
  In today (dates h) -> dates (update_history today cur h) = dates h.
Proof.
  intros Hin. rewrite update_history_present by assumption.
  apply dates_overwrite.
Qed.

Lemma dates_update_absent (today : Date) (cur : Prices) (h : History) :
  ~ In today (dates h) -> dates (update_history today cur h) = dates h ++ [today].
Proof.
  intros Hn. rewrite update_history_absent by assumption.
  unfold dates. now rewrite map_app.
Qed.

Lemma In_dec_dates (d : Date) (h : History) :
  In d (dates h) \/ ~ In d (dates h).
Proof.
  destruct (existsb (fun x => Date_eqb d x) (dates h)) eqn:E.
  - left. now apply existsb_dates.
  - right. intros Hin. apply existsb_dates in Hin. congruence.
Qed.

Lemma In_dates_update (today : Date) (cur : Prices) (h : History) :
  In today (dates (update_history today cur h)).
Proof.
  destruct (In_dec_dates today h) as [Hin | Hn].
  - now rewrite dates_update_present.
  - rewrite dates_update_absent by assumption. apply in_or_app. right. now left.
Qed.

Lemma NoDup_snoc {A : Type} (l : list A) (x : A) :
  NoDup l -> ~ In x l -> NoDup (l ++ [x]).
Proof.
  induction l as [|a l IH]; simpl; intros Hnd Hn.
  - constructor; [tauto | constructor].
  - inversion Hnd as [|? ? Ha Hl]; subst. constructor.
    + intros Hin. apply in_app_or in Hin. destruct Hin as [Hin | [-> | []]].
      * contradiction.
      * apply Hn. now left.
    + apply IH; tauto.
Qed.

Lemma NoDup_update_history (today : Date) (cur : Prices) (h : History) :
  NoDup (dates h) -> NoDup (dates (update_history today cur h)).
Proof.
  intros Hnd. destruct (In_dec_dates today h) as [Hin | Hn].
  - now rewrite dates_update_present.
  - rewrite dates_update_absent by assumption. now apply NoDup_snoc.
Qed.

Lemma rows_of_absent (d : Date) (h : History) :
  ~ In d (dates h) -> rows_of d h = [].
Proof.
  induction h as [|r h IH]; simpl; intros Hn; [reflexivity|].
  destruct (Date_eqb (date r) d) eqn:E.
  - apply Date_eqb_eq in E. exfalso. apply Hn. now left.
  - apply IH. tauto.
Qed.

Lemma rows_of_overwrite (d : Date) (cur : Prices) (h : History) :
  NoDup (dates h) -> In d (dates h) ->
  rows_of d (map (overwrite d cur) h) = [mkRow d cur].
Proof.
  induction h as [|r h IH]; intros Hnd Hin; [contradiction|].
  cbn [dates map] in Hnd, Hin. fold (dates h) in Hnd, Hin.
  inversion Hnd as [|? ? Hr Hh]; subst.
  unfold rows_of. cbn [map filter].
  fold (rows_of d (map (overwrite d cur) h)).
  rewrite date_overwrite. destruct (Date_eqb (date r) d) eqn:E.
  - apply Date_eqb_eq in E. unfold overwrite at 1.
    rewrite E, Date_eqb_refl. f_equal.
    rewrite overwrite_absent by (rewrite <- E; assumption).
    apply rows_of_absent. now rewrite <- E.
  - apply IH; [assumption|].
    destruct Hin as [Hin | Hin]; [|assumption].
    apply Date_eqb_neq in E. contradiction.
Qed.

Lemma rows_of_update_history (d : Date) (cur : Prices) (h : History) :
  NoDup (dates h) -> rows_of d (update_history d cur h) = [mkRow d cur].
Proof.
  intros Hnd. destruct (In_dec_dates d h) as [Hin | Hn].
  - rewrite update_history_present by assumption. now apply rows_of_overwrite.
  - rewrite update_history_absent by assumption.
    unfold rows_of. rewrite filter_app. fold (rows_of d h).
    rewrite rows_of_absent by assumption. simpl. now rewrite Date_eqb_refl.
Qed.

Lemma update_history_idem (d : Date) (cur : Prices) (h : History) :
  update_history d cur (update_history d cur h) = update_history d cur h.
Proof.
  rewrite (update_history_present d cur (update_history d cur h))
    by apply In_dates_update.
  destruct (In_dec_dates d h) as [Hin | Hn].
  - rewrite update_history_present by assumption.
    rewrite map_map. apply map_ext. intros r. apply overwrite_idem.
  - rewrite update_history_absent by assumption.
    rewrite map_app, overwrite_absent by assumption. simpl.
    unfold overwrite. simpl. now rewrite Date_eqb_refl.
Qed.

Lemma rows_not_of_update_history (today : Date) (cur : Prices) (h : History) :
  rows_not_of today (update_history today cur h) = rows_not_of today h.
Proof.
  destruct (In_dec_dates today h) as [Hin | Hn].
  - rewrite update_history_present by assumption. clear Hin.
    induction h as [|r h IH]; simpl; [reflexivity|].
    rewrite date_overwrite. destruct (Date_eqb (date r) today) eqn:E; simpl.
    + exact IH.
    + rewrite IH. unfold overwrite. now rewrite E.
  - rewrite update_history_absent by assumption.
    unfold rows_not_of. rewrite filter_app. simpl.
    rewrite Date_eqb_refl. simpl. apply app_nil_r.
Qed.

(** ** Sessions keep one row per date *)

Lemma handle_upload_history (parser : string -> result float)
    (uploaded_file : option (result DataFrame)) (st : State) :
  price_history (fst (handle_upload parser uploaded_file st)) = price_history st.
Proof.
  unfold handle_upload. destruct uploaded_file as [file|]; [|reflexivity].
  destruct (load_prices_from_excel parser file) as [prices error].
  destruct prices as [[|kv p]|]; simpl; try reflexivity;
    destruct error as [[|c e]|]; reflexivity.
Qed.

Lemma step_NoDup (parser : string -> result float) (st : State) (a : Action) :
  NoDup (dates (price_history st)) ->
  NoDup (dates (price_history (step parser st a))).
Proof.
  intros Hnd. destruct a as [file | today | | now | inputs]; cbn [step].
  - now rewrite handle_upload_history.
  - now apply NoDup_update_history.
  - assumption.
  - constructor; [intros [] | constructor].
  - assumption.
Qed.

Lemma fold_step_NoDup (parser : string -> result float) (actions : list Action) :
  forall st : State,
    NoDup (dates (price_history st)) ->
    NoDup (dates (price_history (fold_left (step parser) actions st))).
Proof.
  induction actions as [|a actions IH]; intros st Hnd; simpl.
  - assumption.
  - apply IH. now apply step_NoDup.
Qed.

Lemma run_NoDup (parser : string -> result float) (now : Date)
    (actions : list Action) :
  NoDup (dates (price_history (run parser now actions))).
Proof.
  unfold run. apply fold_step_NoDup. simpl.
  constructor; [intros [] | constructor].
Qed.

(** ** Sorting by date *)

Lemma In_dates_insert (r : HistoryRow) (l : History) (d : Date) :
  In d (dates (insert_row r l)) <-> d = date r \/ In d (dates l).
Proof.
  induction l as [|x l IH]; simpl.
  - intuition.
  - destruct (Date_leb (date r) (date x)); simpl.
    + intuition.
    + rewrite IH. intuition.
Qed.

Lemma Permutation_insert_row (r : HistoryRow) (l : History) :
  Permutation (insert_row r l) (r :: l).
Proof.
  induction l as [|x l IH]; simpl.
  - apply Permutation_refl.
  - destruct (Date_leb (date r) (date x)).
    + apply Permutation_refl.
    + eapply perm_trans; [apply perm_skip, IH | apply perm_swap].
Qed.

Lemma Permutation_sort_values (h : History) : Permutation (sort_values h) h.
Proof.
  induction h as [|r h IH]; simpl.
  - constructor.
  - eapply perm_trans; [apply Permutation_insert_row | now apply perm_skip].
Qed.

Lemma insert_row_sorted (r : HistoryRow) (l : History) :
  StronglySorted Date_lt (dates l) ->
  ~ In (date r) (dates l) ->
  StronglySorted Date_lt (dates (insert_row r l)).
Proof.
  induction l as [|x l IH]; intros Hs Hn.
  - simpl. constructor; constructor.
  - cbn [dates map] in Hs, Hn. fold (dates l) in Hs, Hn.
    inversion Hs as [|? ? Hl Hx]; subst.
    cbn [insert_row]. destruct (Date_leb (date r) (date x)) eqn:E.
    + cbn [dates map]. fold (dates l).
      assert (Hrx : Date_lt (date r) (date x)).
      { apply Date_leb_neq_lt; [assumption|]. intros Heq. apply Hn. now left. }
      constructor; [now constructor|].
      constructor; [assumption|].
      rewrite Forall_forall in Hx |- *. intros y Hy.
      eapply Date_lt_trans; [exact Hrx | now apply Hx].
    + cbn [dates map]. fold (dates (insert_row r l)).
      constructor.
      * apply IH; [assumption|]. intros Hin. apply Hn. now right.
      * rewrite Forall_forall in Hx |- *. intros y Hy.
        apply In_dates_insert in Hy. destruct Hy as [-> | Hy].
        -- now apply Date_leb_false_lt.
        -- now apply Hx.
Qed.

Lemma sort_values_sorted (h : History) :
  NoDup (dates h) -> StronglySorted Date_lt (dates (sort_values h)).
Proof.
  induction h as [|r h IH]; intros Hnd.
  - constructor.
  - cbn [dates map] in Hnd. fold (dates h) in Hnd.
    inversion Hnd as [|? ? Hr Hh]; subst.
    cbn [sort_values fold_right]. fold (sort_values h).
    apply insert_row_sorted; [now apply IH|].
    intros Hin. apply Hr.
    unfold dates in *. eapply Permutation_in; [|exact Hin].
    apply Permutation_map, Permutation_sort_values.
Qed.

(** * The claims *)

(** C4. On a history with one row per date, recording the same date and the
    same prices twice gives the same table as recording them once, with
    exactly one row for that date, holding those prices; recording a date
    with prices [P1] and then with prices [P2] leaves exactly one row for
    that date, holding [P2]. *)
Theorem snapshot_idempotent_last_write_wins
    (h : History) (d : Date) (P P1 P2 : Prices) :
  NoDup (dates h) ->
  update_history d P (update_history d P h) = update_history d P h
  /\ rows_of d (update_history d P (update_history d P h)) = [mkRow d P]
  /\ rows_of d (update_history d P2 (update_history d P1 h)) = [mkRow d P2].
Proof.
  intros Hnd. split; [apply update_history_idem|]. split.
  - apply rows_of_update_history. now apply NoDup_update_history.
  - apply rows_of_update_history. now apply NoDup_update_history.
Qed.

Lemma snapshot_idempotent_last_write_wins_witness :
  NoDup (dates sample_history)
  /\ update_history jan1 prices_b (update_history jan1 prices_b sample_history)
     = update_history jan1 prices_b sample_history
  /\ rows_of jan1
       (update_history jan1 prices_b (update_history jan1 prices_b sample_history))
     = [mkRow jan1 prices_b]
  /\ rows_of jan1
       (update_history jan1 prices_b (update_history jan1 prices_a sample_history))
     = [mkRow jan1 prices_b].
Proof.
  assert (Hnd : NoDup (dates sample_history)).
  { repeat constructor; simpl; intuition discriminate. }
  split; [exact Hnd|].
  exact (snapshot_idempotent_last_write_wins
           sample_history jan1 prices_b prices_a prices_b Hnd).
Defined.

(** C7. The history holds at most one row per date: the seeded history has
    one row; [update_price_history] keeps the dates distinct, and on a date
    already present it keeps the list of dates as it is (no row is added);
    the clear button leaves exactly the row of the clock's date with the
    current prices; hence every state of every session has pairwise distinct
    dates. *)
Theorem history_one_row_per_date :
  (forall now : Date,
      price_history (initialize_session_state now None)
      = [mkRow now default_prices])
  /\ (forall (today : Date) (st : State),
         NoDup (dates (price_history st)) ->
         NoDup (dates (price_history (update_price_history today st))))
  /\ (forall (today : Date) (st : State),
         In today (dates (price_history st)) ->
         dates (price_history (update_price_history today st))
         = dates (price_history st))
  /\ (forall (now : Date) (st : State),
         price_history (clear_history now st) = [mkRow now (metal_prices st)])
  /\ (forall (parser : string -> result float) (now : Date)
             (actions : list Action),
         NoDup (dates (price_history (run parser now actions)))).
Proof.
  split; [|split; [|split; [|split]]].
  - intros now. simpl. now rewrite one_row_eq.
  - intros today st Hnd. simpl. now apply NoDup_update_history.
  - intros today st Hin. simpl. now apply dates_update_present.
  - intros now st. simpl. now rewrite one_row_eq.
  - apply run_NoDup.
Qed.

Lemma history_one_row_per_date_witness :
  NoDup (dates (price_history sample_state))
  /\ In jan1 (dates (price_history sample_state))
  /\ NoDup (dates (price_history (update_price_history jan1 sample_state)))
  /\ dates (price_history (update_price_history jan1 sample_state))
     = dates (price_history sample_state).
Proof.
  assert (Hnd : NoDup (dates (price_history sample_state))).
  { repeat constructor; simpl; intuition discriminate. }
  assert (Hin : In jan1 (dates (price_history sample_state))).
  { simpl. right. left. reflexivity. }
  split; [exact Hnd|]. split; [exact Hin|]. split.
  - exact (proj1 (proj2 history_one_row_per_date) jan1 sample_state Hnd).
  - exact (proj1 (proj2 (proj2 history_one_row_per_date)) jan1 sample_state Hin).
Defined.

(** C8. In every state of every session (so after any sequence of
    [update_price_history] calls, whatever the order of their dates), the
    series of [create_price_chart] holds the rows of the history, strictly
    ascending by date; every trace of the figure has these dates as its
    abscissas; and [create_price_chart] leaves the session state as it
    was. *)
Theorem chart_series_ascending
    (parser : string -> result float) (now : Date) (actions : list Action) :
  let st := run parser now actions in
  StronglySorted Date_lt (dates (chart_series st))
  /\ Permutation (chart_series st) (price_history st)
  /\ fst (create_price_chart st) = st
  /\ match snd (create_price_chart st) with
     | Some fig => Forall (fun t => t_x t = dates (chart_series st)) fig
     | None => List.length (price_history st) <= 1
     end.
Proof.
  intros st. split; [|split; [|split]].
  - apply sort_values_sorted, run_NoDup.
  - apply Permutation_sort_values.
  - unfold create_price_chart.
    now destruct (List.length (chart_series st) <=? 1).
  - unfold create_price_chart.
    destruct (List.length (chart_series st) <=? 1) eqn:E; cbn [snd].
    + apply Nat.leb_le in E.
      now rewrite <- (Permutation_length (Permutation_sort_values (price_history st))).
    + unfold metals, positions. cbn [combine map fst snd].
      repeat constructor.
Qed.

(** C10. [update_price_history] leaves the rows of the other dates as they
    were: the rows whose date differs from [today], taken in order, are the
    same before and after, whether [today] was present or not. *)
Theorem snapshot_frame (today : Date) (st : State) :
  rows_not_of today (price_history (update_price_history today st))
  = rows_not_of today (price_history st).
Proof. simpl. apply rows_not_of_update_history. Qed.

(** ** The importer *)

Section ImporterFacts.

Variable parser : string -> result float.

Lemma stage_in_range (df : DataFrame) (m : Metal) (prices : PriceMap) :
  7 <= nrows df -> 4 <= ncols df ->
  stage parser df (target_row m) m prices
  = if notna (target_cell df m) then
      match py_float parser (target_cell df m) with
      | Ok v => Ok (dict_set prices m v)
      | Raise msg => Raise msg
      end
    else Ok prices.
Proof.
  intros Hr Hc. unfold stage, iloc, target_cell.
  assert (E : (target_row m <? nrows df) && (3 <? ncols df) = true).
  { apply andb_true_iff. split; apply Nat.ltb_lt; [destruct m; simpl|]; lia. }
  rewrite E. cbn [bind]. destruct (notna (cells df (target_row m) 3)).
  - now destruct (py_float parser (cells df (target_row m) 3)).
  - reflexivity.
Qed.

Lemma load_in_range (df : DataFrame) :
  7 <= nrows df -> 4 <= ncols df ->
  load_prices_body parser (Ok df)
  = (prices <- stage parser df (target_row gold) gold [] ;;
     prices <- stage parser df (target_row silver) silver prices ;;
     prices <- stage parser df (target_row platinum) platinum prices ;;
     prices <- stage parser df (target_row palladium) palladium prices ;;
     Ok (Some prices, None)).
Proof.
  intros Hr Hc. unfold load_prices_body. cbn [bind].
  apply Nat.leb_le in Hr, Hc. now rewrite Hr, Hc.
Qed.

Lemma load_too_small (df : DataFrame) :
  nrows df < 7 \/ ncols df < 4 ->
  load_prices_from_excel parser (Ok df) = (None, Some layout_message).
Proof.
  intros H. unfold load_prices_from_excel, load_prices_body. cbn [bind].
  assert (E : (7 <=? nrows df) && (4 <=? ncols df) = false).
  { apply andb_false_iff.
    destruct H; [left | right]; apply Nat.leb_gt; assumption. }
  now rewrite E.
Qed.

End ImporterFacts.

(** One target cell: blank, coerced, or refused. *)
Ltac cell_cases parser df m :=
  let En := fresh "En" in
  let Ef := fresh "Ef" in
  destruct (notna (target_cell df m)) eqn:En;
  [ destruct (py_float parser (target_cell df m)) eqn:Ef | ].

(** C5. A parsed table with fewer than 7 rows or fewer than 4 columns makes
    the importer return no prices and the message that the file has not
    enough rows/columns for D4:D7; the upload block of [main] then shows
    that message as an error and leaves the session state, hence the price
    store, as it was. *)
Theorem import_layout_error
    (parser : string -> result float) (df : DataFrame) (st : State) :
  nrows df < 7 \/ ncols df < 4 ->
  load_prices_from_excel parser (Ok df) = (None, Some layout_message)
  /\ handle_upload parser (Some (Ok df)) st = (st, Some (Error layout_message)).
Proof.
  intros H. split; [now apply load_too_small|].
  unfold handle_upload. now rewrite load_too_small.
Qed.

Lemma import_layout_error_witness :
  (nrows short_sheet < 7 \/ ncols short_sheet < 4)
  /\ load_prices_from_excel reject_text (Ok short_sheet)
     = (None, Some layout_message)
  /\ handle_upload reject_text (Some (Ok short_sheet)) sample_state
     = (sample_state, Some (Error layout_message)).
Proof.
  assert (H : nrows short_sheet < 7 \/ ncols short_sheet < 4).
  { left. simpl. lia. }
  split; [exact H|].
  exact (import_layout_error reject_text short_sheet sample_state H).
Defined.




(** C6. When the table has at least 7 rows and 4 columns and each of the
    cells D4:D7 is blank or accepted by [float], the importer returns, with
    no error, the dictionary of the metals whose cell is not blank, each
    with the float of its cell; after the upload block of [main], a metal
    whose cell is blank keeps its stored price, a metal whose cell is not
    blank has the float of its cell, and the history and the holdings are as
    they were. *)
Theorem import_success
    (parser : string -> result float) (df : DataFrame) (st : State) :
  7 <= nrows df -> 4 <= ncols df ->
  (forall m : Metal,
      notna (target_cell df m) = false
      \/ exists v : float, py_float parser (target_cell df m) = Ok v) ->
  let st' := fst (handle_upload parser (Some (Ok df)) st) in
  load_prices_from_excel parser (Ok df) = (Some (staged_prices parser df), None)
  /\ (forall m : Metal,
         notna (target_cell df m) = false ->
         dict_get (staged_prices parser df) m = None
         /\ get (metal_prices st') m = get (metal_prices st) m)
  /\ (forall (m : Metal) (v : float),
         notna (target_cell df m) = true ->
         py_float parser (target_cell df m) = Ok v ->
         dict_get (staged_prices parser df) m = Some v
         /\ get (metal_prices st') m = v)
  /\ price_history st' = price_history st
  /\ portfolio_holdings st' = portfolio_holdings st.
Proof.
  intros Hr Hc Hcells st'. subst st'.
  pose proof (Hcells gold) as Hg. pose proof (Hcells silver) as Hs.
  pose proof (Hcells platinum) as Hpt. pose proof (Hcells palladium) as Hpd.
  unfold handle_upload, load_prices_from_excel, staged_prices, metals.
  rewrite load_in_range by assumption.
  cbn [flat_map app].
  rewrite !stage_in_range by assumption.
  cell_cases parser df gold; cbn [bind];
    try (exfalso; destruct Hg as [Hg | [v Hg]]; congruence).
  all: rewrite !stage_in_range by assumption.
  all: cell_cases parser df silver; cbn [bind];
    try (exfalso; destruct Hs as [Hs | [v Hs]]; congruence).
  all: rewrite !stage_in_range by assumption.
  all: cell_cases parser df platinum; cbn [bind];
    try (exfalso; destruct Hpt as [Hpt | [v Hpt]]; congruence).
  all: rewrite !stage_in_range by assumption.
  all: cell_cases parser df palladium; cbn [bind];
    try (exfalso; destruct Hpd as [Hpd | [v Hpd]]; congruence).
  all: cbn [dict_set Metal_eqb app].
  all: (split; [reflexivity|]).
  all: (split; [intros m Hm; destruct m; try congruence; split; reflexivity|]).
  all: (split; [|split; reflexivity]).
  all: intros m v Hm Hv; destruct m; try congruence;
    (split; cbn; congruence).
Qed.

Lemma import_success_witness :
  7 <= nrows partial_sheet
  /\ 4 <= ncols partial_sheet
  /\ (forall m : Metal,
         notna (target_cell partial_sheet m) = false
         \/ exists v : float,
             py_float reject_text (target_cell partial_sheet m) = Ok v)
  /\ load_prices_from_excel reject_text (Ok partial_sheet)
     = (Some (staged_prices reject_text partial_sheet), None).
Proof.
  assert (Hr : 7 <= nrows partial_sheet) by (simpl; lia).
  assert (Hc : 4 <= ncols partial_sheet) by (simpl; lia).
  assert (Hcells : forall m : Metal,
             notna (target_cell partial_sheet m) = false
             \/ exists v : float,
                 py_float reject_text (target_cell partial_sheet m) = Ok v).
  { intros m. destruct m.
    - right. eexists. reflexivity.
    - left. reflexivity.
    - right. eexists. reflexivity.
    - left. reflexivity. }
  repeat (split; [assumption|]).
  exact (proj1 (import_success reject_text partial_sheet sample_state
                               Hr Hc Hcells)).
Defined.

(** C9. The importer stages the float of a numeric cell whatever its sign,
    and the upload block of [main] merges it: after a new session uploads a
    7 x 4 sheet whose cell D4 holds -5, the stored price of gold is -5, a
    negative number. *)
Theorem import_stores_negative_price (parser : string -> result float) :
  let st' := fst (handle_upload parser (Some (Ok negative_sheet))
                                (initialize_session_state jan1 None)) in
  get (metal_prices st') gold = (-5)%float
  /\ PrimFloat.ltb (get (metal_prices st') gold) 0%float = true.
Proof. split; reflexivity. Qed.

(** C2. [calculate_portfolio_value] returns, as total, the float sum
    0 + h(gold)*p(gold) + h(silver)*p(silver) + h(platinum)*p(platinum)
    + h(palladium)*p(palladium), added from left to right, and, as
    breakdown, the lines (metal, holding, price, holding*price) of the metals
    whose holding is greater than zero, in the order gold, silver, platinum,
    palladium; with holdings 2, 0, 1, 0 and prices 2000, 25, 950, 1800 the
    total is 4950 and the breakdown is the gold line then the platinum
    line. *)
Theorem portfolio_value_spec :
  (forall st : State,
      let h := portfolio_holdings st in
      let p := metal_prices st in
      let value m := PrimFloat.mul (get h m) (get p m) in
      calculate_portfolio_value st
      = (PrimFloat.add
           (PrimFloat.add
              (PrimFloat.add (PrimFloat.add 0%float (value gold)) (value silver))
              (value platinum))
           (value palladium),
         filter (fun l => PrimFloat.ltb 0%float (line_holding l))
                (map (fun m => mkLine (capitalize m) (get h m) (get p m) (value m))
                     metals)))
  /\ calculate_portfolio_value
       (mkState (mkQuad 2000%float 25%float 950%float 1800%float) []
                (mkQuad 2%float 0%float 1%float 0%float))
     = (4950%float,
        [mkLine "Gold" 2%float 2000%float 4000%float;
         mkLine "Platinum" 1%float 950%float 950%float]).
Proof.
  split.
  - intros st h p value. subst h p value.
    unfold calculate_portfolio_value, portfolio_step, metals.
    cbn [fold_left map filter fst snd line_holding].
    destruct (PrimFloat.ltb 0%float (get (portfolio_holdings st) gold));
      destruct (PrimFloat.ltb 0%float (get (portfolio_holdings st) silver));
      destruct (PrimFloat.ltb 0%float (get (portfolio_holdings st) platinum));
      destruct (PrimFloat.ltb 0%float (get (portfolio_holdings st) palladium));
      reflexivity.
  - reflexivity.
Qed.

(** C3. [to_csv] writes the header and then the rows of the history in the
    order in which they are stored, without sorting them: on a history
    recorded on 2 January and then on 1 January, the line of 2 January comes
    before the line of 1 January, while the series of [create_price_chart]
    on the same history is ascending. *)
Theorem export_keeps_stored_order (csv_float : float -> string) :
  to_csv csv_float sample_state
  = ((csv_header ++ newline)
     ++ (csv_row csv_float (mkRow jan2 default_prices) ++ newline)
     ++ (csv_row csv_float (mkRow jan1 prices_a) ++ newline))%string
  /\ csv_lines csv_float (price_history sample_state)
     = [csv_header;
        csv_row csv_float (mkRow jan2 default_prices);
        csv_row csv_float (mkRow jan1 prices_a)]
  /\ csv_row csv_float (mkRow jan2 default_prices)
     = ("2024-01-02,"
        ++ join_comma (map csv_float
                           [2000%float; 25%float; 950%float; 1800%float]))%string
  /\ csv_row csv_float (mkRow jan1 prices_a)
     = ("2024-01-01,"
        ++ join_comma (map csv_float
                           [2100%float; 26%float; 960%float; 1750%float]))%string
  /\ Date_lt jan1 jan2
  /\ NoDup (dates (price_history sample_state))
  /\ dates (chart_series sample_state) = [jan1; jan2].
Proof.
  split; [reflexivity|].
  split; [reflexivity|]. split; [reflexivity|]. split; [reflexivity|].
  split; [reflexivity|]. split; [|reflexivity].
  repeat constructor; simpl; intuition discriminate.
Qed.


(** * Further properties of the code *)

(** ** The importer and the upload block *)

Lemma error_text_nonempty (e : string) : (read_error_prefix ++ e)%string <> "".
Proof. discriminate. Qed.

(** X1. Whatever the uploaded file (unreadable, too small, with refused
    cells or correct), [load_prices_from_excel] returns either prices and no
    error, or no prices and a non-empty error text, never both and never
    neither.  In the second case the upload block of [main] shows that text
    as an error and leaves the session state as it was; in the first it
    merges the prices and reports them, except that an empty dictionary is
    merged and reported by nothing.  In every case the history and the
    holdings are those of before. *)
Theorem upload_outcome
    (parser : string -> result float) (file : result DataFrame) (st : State) :
  ((exists p : PriceMap,
       load_prices_from_excel parser file = (Some p, None)
       /\ handle_upload parser (Some file) st
          = match p with
            | [] => (st, None)
            | _ :: _ =>
                (mkState (dict_update (metal_prices st) p)
                         (price_history st) (portfolio_holdings st),
                 Some (Success p))
            end)
   \/ (exists e : string,
          load_prices_from_excel parser file = (None, Some e)
          /\ e <> ""
          /\ handle_upload parser (Some file) st = (st, Some (Error e))))
  /\ price_history (fst (handle_upload parser (Some file) st))
     = price_history st
  /\ portfolio_holdings (fst (handle_upload parser (Some file) st))
     = portfolio_holdings st.
Proof.
  assert (Hcases :
            (exists p, load_prices_from_excel parser file = (Some p, None))
            \/ (exists e, load_prices_from_excel parser file = (None, Some e)
                          /\ e <> "")).
  { destruct file as [df | msg].
    - destruct (Nat.le_gt_cases 7 (nrows df)) as [Hr | Hr];
        [destruct (Nat.le_gt_cases 4 (ncols df)) as [Hc | Hc]|].
      + unfold load_prices_from_excel. rewrite load_in_range by assumption.
        destruct (stage parser df (target_row gold) gold []) as [p1 | e];
          cbn [bind]; [|right; eexists; split;
                        [reflexivity | apply error_text_nonempty]].
        destruct (stage parser df (target_row silver) silver p1) as [p2 | e];
          cbn [bind]; [|right; eexists; split;
                        [reflexivity | apply error_text_nonempty]].
        destruct (stage parser df (target_row platinum) platinum p2)
          as [p3 | e];
          cbn [bind]; [|right; eexists; split;
                        [reflexivity | apply error_text_nonempty]].
        destruct (stage parser df (target_row palladium) palladium p3)
          as [p4 | e];
          cbn [bind]; [|right; eexists; split;
                        [reflexivity | apply error_text_nonempty]].
        left. now exists p4.
      + right. exists layout_message. split; [|discriminate].
        apply load_too_small. now right.
      + right. exists layout_message. split; [|discriminate].
        apply load_too_small. now left.
    - right. eexists. split; [reflexivity | apply error_text_nonempty]. }
  destruct Hcases as [[p Hp] | (e & He & Hne)].
  - unfold handle_upload. rewrite Hp. destruct p as [|kv p]; simpl.
    + split; [|split; reflexivity]. left. exists []. now split.
    + split; [|split; reflexivity]. left. exists (kv :: p). now split.
  - unfold handle_upload. rewrite He.
    destruct e as [|c e]; [contradiction|]. simpl.
    split; [|split; reflexivity]. right. exists (String c e).
    repeat split; [assumption].
Qed.

(** X2. A sheet of at least 7 rows and 4 columns whose cells D4:D7 are all
    blank is imported with no error and no price: the upload block of [main]
    then shows neither a success nor an error message and changes
    nothing. *)
Theorem upload_blank_cells_is_silent
    (parser : string -> result float) (df : DataFrame) (st : State) :
  7 <= nrows df -> 4 <= ncols df ->
  (forall m : Metal, notna (target_cell df m) = false) ->
  load_prices_from_excel parser (Ok df) = (Some [], None)
  /\ handle_upload parser (Some (Ok df)) st = (st, None).
Proof.
  intros Hr Hc Hblank.
  assert (Hload : load_prices_from_excel parser (Ok df) = (Some [], None)).
  { unfold load_prices_from_excel. rewrite load_in_range by assumption.
    rewrite stage_in_range, (Hblank gold) by assumption. cbn [bind].
    rewrite stage_in_range, (Hblank silver) by assumption. cbn [bind].
    rewrite stage_in_range, (Hblank platinum) by assumption. cbn [bind].
    rewrite stage_in_range, (Hblank palladium) by assumption. reflexivity. }
  split; [exact Hload|]. unfold handle_upload. now rewrite Hload.
Qed.

Lemma upload_blank_cells_is_silent_witness :
  7 <= nrows blank_sheet
  /\ 4 <= ncols blank_sheet
  /\ (forall m : Metal, notna (target_cell blank_sheet m) = false)
  /\ handle_upload reject_text (Some (Ok blank_sheet)) sample_state
     = (sample_state, None).
Proof.
  assert (Hr : 7 <= nrows blank_sheet) by (simpl; lia).
  assert (Hc : 4 <= ncols blank_sheet) by (simpl; lia).
  assert (Hb : forall m : Metal, notna (target_cell blank_sheet m) = false)
    by (intros m; destruct m; reflexivity).
  repeat (split; [assumption|]).
  exact (proj2 (upload_blank_cells_is_silent reject_text blank_sheet
                                             sample_state Hr Hc Hb)).
Defined.

(** X3. The importer reads nothing but D4:D7: two sheets of at least 7 rows
    and 4 columns that hold the same four cells are imported with the same
    result, whatever their sizes and their other cells. *)
Theorem import_reads_only_target_cells
    (parser : string -> result float) (df1 df2 : DataFrame) :
  7 <= nrows df1 -> 4 <= ncols df1 ->
  7 <= nrows df2 -> 4 <= ncols df2 ->
  (forall m : Metal, target_cell df1 m = target_cell df2 m) ->
  load_prices_from_excel parser (Ok df1) = load_prices_from_excel parser (Ok df2).
Proof.
  intros Hr1 Hc1 Hr2 Hc2 Hsame. unfold load_prices_from_excel.
  rewrite !load_in_range by assumption.
  assert (Hstage : forall m p,
             stage parser df1 (target_row m) m p
             = stage parser df2 (target_row m) m p).
  { intros m p. rewrite !stage_in_range by assumption. now rewrite Hsame. }
  rewrite (Hstage gold).
  destruct (stage parser df2 (target_row gold) gold []) as [p1 | e];
    cbn [bind]; [|reflexivity].
  rewrite (Hstage silver).
  destruct (stage parser df2 (target_row silver) silver p1) as [p2 | e];
    cbn [bind]; [|reflexivity].
  rewrite (Hstage platinum).
  destruct (stage parser df2 (target_row platinum) platinum p2) as [p3 | e];
    cbn [bind]; [|reflexivity].
  now rewrite (Hstage palladium).
Qed.

Lemma import_reads_only_target_cells_witness :
  7 <= nrows partial_sheet /\ 4 <= ncols partial_sheet
  /\ 7 <= nrows busy_sheet /\ 4 <= ncols busy_sheet
  /\ (forall m : Metal, target_cell partial_sheet m = target_cell busy_sheet m)
  /\ load_prices_from_excel reject_text (Ok partial_sheet)
     = load_prices_from_excel reject_text (Ok busy_sheet).
Proof.
  assert (Hr1 : 7 <= nrows partial_sheet) by (simpl; lia).
  assert (Hc1 : 4 <= ncols partial_sheet) by (simpl; lia).
  assert (Hr2 : 7 <= nrows busy_sheet) by (simpl; lia).
  assert (Hc2 : 4 <= ncols busy_sheet) by (simpl; lia).
  assert (Hs : forall m : Metal,
             target_cell partial_sheet m = target_cell busy_sheet m)
    by (intros m; destruct m; reflexivity).
  repeat (split; [assumption|]).
  exact (import_reads_only_target_cells reject_text partial_sheet busy_sheet
                                        Hr1 Hc1 Hr2 Hc2 Hs).
Defined.

(** X4. The importer succeeds only on correct sheets: whenever it returns
    prices, the sheet has at least 7 rows and 4 columns, each of the cells
    D4:D7 is blank or accepted by [float], and the prices are exactly those
    of the cells that are not blank, in the order gold, silver, platinum,
    palladium. *)
Theorem import_success_only_if
    (parser : string -> result float) (df : DataFrame) (p : PriceMap) :
  load_prices_from_excel parser (Ok df) = (Some p, None) ->
  7 <= nrows df
  /\ 4 <= ncols df
  /\ (forall m : Metal,
         notna (target_cell df m) = false
         \/ exists v : float, py_float parser (target_cell df m) = Ok v)
  /\ p = staged_prices parser df.
Proof.
  intros H.
  destruct (Nat.le_gt_cases 7 (nrows df)) as [Hr | Hr];
    [|rewrite load_too_small in H by (now left); discriminate].
  destruct (Nat.le_gt_cases 4 (ncols df)) as [Hc | Hc];
    [|rewrite load_too_small in H by (now right); discriminate].
  split; [assumption|]. split; [assumption|].
  revert H. unfold load_prices_from_excel, staged_prices, metals.
  rewrite load_in_range by assumption. cbn [flat_map app].
  rewrite !stage_in_range by assumption.
  cell_cases parser df gold; cbn [bind]; try discriminate.
  all: rewrite !stage_in_range by assumption.
  all: cell_cases parser df silver; cbn [bind]; try discriminate.
  all: rewrite !stage_in_range by assumption.
  all: cell_cases parser df platinum; cbn [bind]; try discriminate.
  all: rewrite !stage_in_range by assumption.
  all: cell_cases parser df palladium; cbn [bind]; try discriminate.
  all: cbn [dict_set Metal_eqb app]; intros H; injection H as <-.
  all: (split; [|reflexivity]).
  all: intros m; destruct m;
    solve [left; assumption | right; eexists; eassumption].
Qed.

Lemma import_success_only_if_witness :
  load_prices_from_excel reject_text (Ok partial_sheet)
  = (Some [(gold, 2500%float); (platinum, 1000%float)], None)
  /\ [(gold, 2500%float); (platinum, 1000%float)]
     = staged_prices reject_text partial_sheet.
Proof.
  assert (H : load_prices_from_excel reject_text (Ok partial_sheet)
              = (Some [(gold, 2500%float); (platinum, 1000%float)], None))
    by reflexivity.
  split; [exact H|].
  exact (proj2 (proj2 (proj2 (import_success_only_if reject_text partial_sheet
                                                     _ H)))).
Defined.

(** One target cell that is blank or accepted by [float]. *)
Ltac passed_cell parser df m H :=
  rewrite (stage_in_range parser df m) by assumption;
  let v := fresh "v" in
  let Hb := fresh "Hb" in
  destruct H as [Hb | [v Hb]];
  [ rewrite Hb
  | destruct (notna (target_cell df m)); [rewrite Hb|] ];
  cbn [bind].

(** X5. When several of the cells D4:D7 are refused by [float], the error
    reported is that of the first one in the order D4, D5, D6, D7: if the
    cell of a metal is not blank and refused with some text, and the cells
    above it are each blank or accepted, the importer returns "Error reading
    Excel file: " followed by that text. *)
Theorem import_reports_first_refused_cell
    (parser : string -> result float) (df : DataFrame)
    (m : Metal) (msg : string) :
  7 <= nrows df -> 4 <= ncols df ->
  notna (target_cell df m) = true ->
  py_float parser (target_cell df m) = Raise msg ->
  (forall k : Metal,
      target_row k < target_row m ->
      notna (target_cell df k) = false
      \/ exists v : float, py_float parser (target_cell df k) = Ok v) ->
  load_prices_from_excel parser (Ok df)
  = (None, Some (read_error_prefix ++ msg)%string).
Proof.
  intros Hr Hc Hn Hf Habove. unfold load_prices_from_excel.
  rewrite load_in_range by assumption.
  destruct m.
  - rewrite stage_in_range, Hn, Hf by assumption. reflexivity.
  - pose proof (Habove gold ltac:(simpl; lia)) as Hg.
    passed_cell parser df gold Hg;
      rewrite stage_in_range, Hn, Hf by assumption; reflexivity.
  - pose proof (Habove gold ltac:(simpl; lia)) as Hg.
    pose proof (Habove silver ltac:(simpl; lia)) as Hs.
    passed_cell parser df gold Hg; passed_cell parser df silver Hs;
      rewrite stage_in_range, Hn, Hf by assumption; reflexivity.
  - pose proof (Habove gold ltac:(simpl; lia)) as Hg.
    pose proof (Habove silver ltac:(simpl; lia)) as Hs.
    pose proof (Habove platinum ltac:(simpl; lia)) as Hpt.
    passed_cell parser df gold Hg; passed_cell parser df silver Hs;
      passed_cell parser df platinum Hpt;
      rewrite stage_in_range, Hn, Hf by assumption; reflexivity.
Qed.

Lemma import_reports_first_refused_cell_witness :
  7 <= nrows two_refused_sheet
  /\ 4 <= ncols two_refused_sheet
  /\ notna (target_cell two_refused_sheet silver) = true
  /\ py_float reject_text (target_cell two_refused_sheet silver)
     = Raise "could not convert string to float: 'unknown'"
  /\ (forall k : Metal,
         target_row k < target_row silver ->
         notna (target_cell two_refused_sheet k) = false
         \/ exists v : float,
             py_float reject_text (target_cell two_refused_sheet k) = Ok v)
  /\ load_prices_from_excel reject_text (Ok two_refused_sheet)
     = (None,
        Some "Error reading Excel file: could not convert string to float: 'unknown'").
Proof.
  assert (Hr : 7 <= nrows two_refused_sheet) by (simpl; lia).
  assert (Hc : 4 <= ncols two_refused_sheet) by (simpl; lia).
  assert (Hn : notna (target_cell two_refused_sheet silver) = true)
    by reflexivity.
  assert (Hf : py_float reject_text (target_cell two_refused_sheet silver)
               = Raise "could not convert string to float: 'unknown'")
    by reflexivity.
  assert (Ha : forall k : Metal,
             target_row k < target_row silver ->
             notna (target_cell two_refused_sheet k) = false
             \/ exists v : float,
                 py_float reject_text (target_cell two_refused_sheet k) = Ok v).
  { intros k Hk. destruct k; simpl in Hk; try lia.
    right. eexists. reflexivity. }
  repeat (split; [assumption|]).
  exact (import_reports_first_refused_cell reject_text two_refused_sheet
                                           silver _ Hr Hc Hn Hf Ha).
Defined.

(** ** The history and the buttons *)

(** X6. [update_price_history] as one step: when the history has no row for
    [today] it gains one last row, holding [today] and the current prices;
    otherwise the four column writes leave every row of another date as it
    is and give every row of [today] the current prices, so that no row is
    added, removed or moved.  The prices and the holdings are not
    changed. *)
Theorem update_price_history_effect (today : Date) (st : State) :
  update_price_history today st
  = mkState (metal_prices st)
            (if existsb (fun d => Date_eqb today d) (dates (price_history st))
             then map (overwrite today (metal_prices st)) (price_history st)
             else price_history st ++ [mkRow today (metal_prices st)])
            (portfolio_holdings st).
Proof.
  unfold update_price_history. f_equal.
  destruct (existsb (fun d => Date_eqb today d) (dates (price_history st)))
    eqn:E.
  - apply update_history_present. now apply existsb_dates.
  - apply update_history_absent. intros Hin.
    apply existsb_dates in Hin. congruence.
Qed.



Lemma update_history_length (today : Date) (cur : Prices) (h : History) :
  List.length h <= List.length (update_history today cur h).
Proof.
  destruct (In_dec_dates today h) as [Hin | Hn].
  - rewrite update_history_present by assumption. now rewrite length_map.
  - rewrite update_history_absent by assumption. rewrite length_app. lia.
Qed.

Lemma step_history_nonempty (parser : string -> result float)
    (st : State) (a : Action) :
  1 <= List.length (price_history st) ->
  1 <= List.length (price_history (step parser st a)).
Proof.
  intros H. destruct a as [file | today | | now | inputs]; cbn [step].
  - now rewrite handle_upload_history.
  - cbn [update_price_history price_history].
    pose proof (update_history_length today (metal_prices st) (price_history st)).
    lia.
  - assumption.
  - simpl. lia.
  - assumption.
Qed.

(** X8. The history is never empty: in every state of every session it
    holds at least one row, so the export always has a data line after its
    header. *)
Theorem history_never_empty
    (parser : string -> result float) (now : Date) (actions : list Action)
    (csv_float : float -> string) :
  1 <= List.length (price_history (run parser now actions))
  /\ 2 <= List.length (csv_lines csv_float
                                 (price_history (run parser now actions))).
Proof.
  assert (H : 1 <= List.length (price_history (run parser now actions))).
  { unfold run.
    assert (Hgen : forall acts st,
               1 <= List.length (price_history st) ->
               1 <= List.length (price_history (fold_left (step parser) acts st))).
    { induction acts as [|a acts IH]; intros st Hst; simpl.
      - assumption.
      - apply IH. now apply step_history_nonempty. }
    apply Hgen. simpl. lia. }
  split; [exact H|]. unfold csv_lines. cbn [List.length].
  rewrite length_map. lia.
Qed.

Lemma combine_map_same {A B C : Type} (f : A -> B) (g : A -> C) (l : list A) :
  combine (map f l) (map g l) = map (fun x => (f x, g x)) l.
Proof. induction l as [|x l IH]; simpl; [reflexivity | now rewrite IH]. Qed.

(** X9. [create_price_chart] gives no figure exactly when the history has at
    most one row.  Otherwise the figure has four traces, named Gold, Silver,
    Platinum and Palladium, placed at (1,1), (1,2), (2,1) and (2,2), and the
    points of the trace of a metal are the pairs (date, price of that metal)
    of the rows of the history, in ascending order of date. *)
Theorem chart_figure_structure (st : State) :
  match snd (create_price_chart st) with
  | None => List.length (price_history st) <= 1
  | Some fig =>
      2 <= List.length (price_history st)
      /\ map t_name fig = ["Gold"; "Silver"; "Platinum"; "Palladium"]
      /\ map (fun t => (t_row t, t_col t)) fig = positions
      /\ map (fun t => combine (t_x t) (t_y t)) fig
         = map (fun m => map (fun r => (date r, get (values r) m))
                             (chart_series st))
               metals
  end.
Proof.
  unfold create_price_chart.
  pose proof (Permutation_length (Permutation_sort_values (price_history st)))
    as Hlen. fold (chart_series st) in Hlen.
  destruct (List.length (chart_series st) <=? 1) eqn:E; cbn [snd].
  - apply Nat.leb_le in E. lia.
  - apply Nat.leb_gt in E. split; [lia|].
    unfold metals, positions.
    cbn [combine map fst snd t_name t_row t_col t_x t_y capitalize].
    rewrite !combine_map_same. repeat split.
Qed.

(** ** The sorted copy and the clock *)

Lemma StronglySorted_lt_NoDup (l : list Date) :
  StronglySorted Date_lt l -> NoDup l.
Proof.
  induction 1 as [|a l Hs IH Hf]; constructor; [|assumption].
  intros Hin. rewrite Forall_forall in Hf.
  exact (Date_lt_irrefl a (Hf a Hin)).
Qed.

Lemma sorted_permutation_eq (l1 : History) :
  forall l2 : History,
    StronglySorted Date_lt (dates l1) ->
    StronglySorted Date_lt (dates l2) ->
    Permutation l1 l2 -> l1 = l2.
Proof.
  induction l1 as [|a l1 IH]; intros l2 H1 H2 Hp.
  - apply Permutation_nil in Hp. now subst.
  - destruct l2 as [|b l2];
      [apply Permutation_sym, Permutation_nil in Hp; discriminate|].
    cbn [dates map] in H1, H2. fold (dates l1) in H1. fold (dates l2) in H2.
    inversion H1 as [|? ? Hs1 Hf1]; subst.
    inversion H2 as [|? ? Hs2 Hf2]; subst.
    rewrite Forall_forall in Hf1, Hf2.
    assert (Hab : a = b).
    { assert (Ha : In a (b :: l2))
        by (eapply Permutation_in; [exact Hp | now left]).
      assert (Hb : In b (a :: l1))
        by (eapply Permutation_in;
            [apply Permutation_sym; exact Hp | now left]).
      destruct Ha as [Ha | Ha]; [now symmetry|].
      destruct Hb as [Hb | Hb]; [assumption|].
      exfalso. apply (Date_lt_irrefl (date a)).
      eapply Date_lt_trans.
      - apply Hf1. unfold dates. apply in_map. exact Hb.
      - apply Hf2. unfold dates. apply in_map. exact Ha. }
    subst b. f_equal. apply IH; try assumption.
    eapply Permutation_cons_inv. exact Hp.
Qed.

(** X10. The sorted copy used by the chart does not depend on how
    [sort_values] sorts: any arrangement of the rows of the history that is
    strictly ascending by date is the sorted copy. *)
Theorem sorted_copy_is_unique (st : State) (l : History) :
  Permutation l (price_history st) ->
  StronglySorted Date_lt (dates l) ->
  l = chart_series st.
Proof.
  intros Hp Hs. unfold chart_series.
  apply sorted_permutation_eq; [assumption| |].
  - apply sort_values_sorted.
    eapply Permutation_NoDup;
      [unfold dates; apply Permutation_map; exact Hp|].
    now apply StronglySorted_lt_NoDup.
  - eapply perm_trans; [exact Hp|].
    apply Permutation_sym, Permutation_sort_values.
Qed.

Lemma sorted_copy_is_unique_witness :
  Permutation [mkRow jan1 prices_a; mkRow jan2 default_prices]
              (price_history sample_state)
  /\ StronglySorted Date_lt
       (dates [mkRow jan1 prices_a; mkRow jan2 default_prices])
  /\ [mkRow jan1 prices_a; mkRow jan2 default_prices]
     = chart_series sample_state.
Proof.
  assert (Hp : Permutation [mkRow jan1 prices_a; mkRow jan2 default_prices]
                           (price_history sample_state))
    by apply perm_swap.
  assert (Hs : StronglySorted Date_lt
                 (dates [mkRow jan1 prices_a; mkRow jan2 default_prices])).
  { repeat constructor. }
  split; [exact Hp|]. split; [exact Hs|].
  exact (sorted_copy_is_unique sample_state _ Hp Hs).
Defined.

Lemma Date_leb_refl (a : Date) : Date_leb a a = true.
Proof.
  unfold Date_leb. destruct (Date_ltb a a) eqn:E; [|reflexivity].
  exfalso. exact (Date_lt_irrefl a E).
Qed.

Lemma Date_lt_leb (a b : Date) : Date_lt a b -> Date_leb a b = true.
Proof.
  intros H. unfold Date_leb. destruct (Date_ltb b a) eqn:E; [|reflexivity].
  exfalso. exact (Date_lt_irrefl a (Date_lt_trans a b a H E)).
Qed.

Lemma Date_leb_cases (a b : Date) :
  Date_leb a b = true -> a = b \/ Date_lt a b.
Proof.
  intros H. destruct (Date_eqb a b) eqn:E.
  - left. now apply Date_eqb_eq.
  - right. apply Date_leb_neq_lt; [assumption|]. now apply Date_eqb_neq.
Qed.

Lemma Date_leb_trans (a b c : Date) :
  Date_leb a b = true -> Date_leb b c = true -> Date_leb a c = true.
Proof.
  intros H1 H2.
  destruct (Date_leb_cases a b H1) as [-> | Hab]; [assumption|].
  destruct (Date_leb_cases b c H2) as [<- | Hbc]; [assumption|].
  apply Date_lt_leb. exact (Date_lt_trans a b c Hab Hbc).
Qed.

Lemma StronglySorted_snoc (l : list Date) (d : Date) :
  StronglySorted Date_lt l ->
  Forall (fun x => Date_lt x d) l ->
  StronglySorted Date_lt (l ++ [d]).
Proof.
  induction 1 as [|a l Hs IH Hf]; intros Hd; simpl.
  - repeat constructor.
  - inversion Hd as [|? ? Had Hld]; subst. constructor.
    + now apply IH.
    + apply Forall_app. split; [assumption | now constructor].
Qed.

Lemma ascending_until_update (t d : Date) (cur : Prices) (h : History) :
  ascending_until t h -> Date_leb t d = true ->
  ascending_until d (update_history d cur h).
Proof.
  intros [Hs Hf] Htd.
  assert (Hfd : Forall (fun x => Date_leb x d = true) (dates h)).
  { eapply Forall_impl; [|exact Hf]. intros x Hx.
    exact (Date_leb_trans x t d Hx Htd). }
  destruct (In_dec_dates d h) as [Hin | Hn].
  - rewrite update_history_present by assumption.
    unfold ascending_until. now rewrite dates_overwrite.
  - unfold ascending_until. rewrite dates_update_absent by assumption. split.
    + apply StronglySorted_snoc; [assumption|].
      rewrite Forall_forall in Hfd |- *. intros x Hx.
      apply Date_leb_neq_lt; [now apply Hfd|]. intros ->. contradiction.
    + apply Forall_app. split; [assumption|].
      constructor; [apply Date_leb_refl | constructor].
Qed.

Lemma ascending_until_run (parser : string -> result float)
    (actions : list Action) :
  forall (st : State) (t : Date),
    ascending_until t (price_history st) ->
    clock_monotone t actions = true ->
    StronglySorted Date_lt
      (dates (price_history (fold_left (step parser) actions st))).
Proof.
  induction actions as [|a actions IH]; intros st t Hinv Hm.
  - exact (proj1 Hinv).
  - cbn [fold_left].
    destruct a as [file | today | | now | inputs]; cbn [clock_monotone] in Hm.
    + apply (IH _ t); [|assumption]. cbn [step].
      now rewrite handle_upload_history.
    + apply andb_true_iff in Hm. destruct Hm as [Htd Hm].
      apply (IH _ today); [|assumption].
      cbn [step update_price_history price_history].
      now apply (ascending_until_update t).
    + apply (IH _ t); assumption.
    + apply andb_true_iff in Hm. destruct Hm as [Htd Hm].
      apply (IH _ now); [|assumption].
      cbn [step clear_history price_history]. split.
      * repeat constructor.
      * constructor; [apply Date_leb_refl | constructor].
    + apply (IH _ t); assumption.
Qed.

(** X11. When the dates read from the clock never go back during a session,
    the history is stored in strictly ascending order of date: the sorted
    copy of the chart is the history itself, and the export lists the rows
    in ascending order of date, the order of the chart. *)
Theorem monotone_clock_keeps_history_sorted
    (parser : string -> result float) (now : Date) (actions : list Action)
    (csv_float : float -> string) :
  clock_monotone now actions = true ->
  let st := run parser now actions in
  StronglySorted Date_lt (dates (price_history st))
  /\ chart_series st = price_history st
  /\ csv_lines csv_float (price_history st)
     = csv_header :: map (csv_row csv_float) (chart_series st).
Proof.
  intros Hm st.
  assert (Hs : StronglySorted Date_lt (dates (price_history st))).
  { unfold st, run. apply (ascending_until_run parser actions _ now).
    - split; simpl.
      + repeat constructor.
      + constructor; [apply Date_leb_refl | constructor].
    - assumption. }
  assert (Heq : chart_series st = price_history st).
  { unfold chart_series. apply sorted_permutation_eq.
    - apply sort_values_sorted. now apply StronglySorted_lt_NoDup.
    - assumption.
    - apply Permutation_sort_values. }
  split; [assumption|]. split; [assumption|].
  now rewrite Heq.
Qed.

Lemma monotone_clock_keeps_history_sorted_witness :
  clock_monotone jan1 [UpdateHistory jan1; EditPrices prices_a;
                       UpdateHistory jan2; ResetPrices; UpdateHistory jan2]
  = true
  /\ chart_series
       (run reject_text jan1
            [UpdateHistory jan1; EditPrices prices_a;
             UpdateHistory jan2; ResetPrices; UpdateHistory jan2])
     = price_history
         (run reject_text jan1
              [UpdateHistory jan1; EditPrices prices_a;
               UpdateHistory jan2; ResetPrices; UpdateHistory jan2]).
Proof.
  assert (Hm : clock_monotone jan1
                 [UpdateHistory jan1; EditPrices prices_a;
                  UpdateHistory jan2; ResetPrices; UpdateHistory jan2]
               = true) by reflexivity.
  split; [exact Hm|].
  exact (proj1 (proj2 (monotone_clock_keeps_history_sorted
                         reject_text jan1 _ (fun _ => EmptyString) Hm))).
Defined.

(** ** The portfolio panel *)

Lemma calculate_portfolio_value_eq (st : State) :
  calculate_portfolio_value st
  = (PrimFloat.add
       (PrimFloat.add
          (PrimFloat.add
             (PrimFloat.add 0%float
                (PrimFloat.mul (get (portfolio_holdings st) gold)
                               (get (metal_prices st) gold)))
             (PrimFloat.mul (get (portfolio_holdings st) silver)
                            (get (metal_prices st) silver)))
          (PrimFloat.mul (get (portfolio_holdings st) platinum)
                         (get (metal_prices st) platinum)))
       (PrimFloat.mul (get (portfolio_holdings st) palladium)
                      (get (metal_prices st) palladium)),
     filter (fun l => PrimFloat.ltb 0%float (line_holding l))
            (map (fun m => mkLine (capitalize m)
                                  (get (portfolio_holdings st) m)
                                  (get (metal_prices st) m)
                                  (PrimFloat.mul (get (portfolio_holdings st) m)
                                                 (get (metal_prices st) m)))
                 metals)).
Proof.
  unfold calculate_portfolio_value, portfolio_step, metals.
  cbn [fold_left map filter fst snd line_holding].
  destruct (PrimFloat.ltb 0%float (get (portfolio_holdings st) gold));
    destruct (PrimFloat.ltb 0%float (get (portfolio_holdings st) silver));
    destruct (PrimFloat.ltb 0%float (get (portfolio_holdings st) platinum));
    destruct (PrimFloat.ltb 0%float (get (portfolio_holdings st) palladium));
    reflexivity.
Qed.

(** X12. The portfolio panel of [main] stores the holdings entered and
    changes neither the prices nor the history.  It shows the hint instead
    of the table and the total exactly when no holding is greater than zero;
    otherwise the table has between one and four lines, each for a holding
    greater than zero with its value equal to holding times price, and the
    total shown is that of [calculate_portfolio_value]. *)
Theorem portfolio_panel_view (inputs : Holdings) (st : State) :
  let st' := fst (portfolio_panel inputs st) in
  st' = mkState (metal_prices st) (price_history st) inputs
  /\ (snd (portfolio_panel inputs st) = ShowHint
      <-> forall m : Metal, PrimFloat.ltb 0%float (get inputs m) = false)
  /\ match snd (portfolio_panel inputs st) with
     | ShowHint => True
     | ShowPortfolio rows total =>
         1 <= List.length rows <= 4
         /\ Forall (fun l =>
                      PrimFloat.ltb 0%float (line_holding l) = true
                      /\ line_value l
                         = PrimFloat.mul (line_holding l) (line_price l))
                   rows
         /\ (total, rows) = calculate_portfolio_value st'
     end.
Proof.
  unfold portfolio_panel. rewrite quad_eta.
  rewrite calculate_portfolio_value_eq.
  unfold metals.
  cbn [map filter fst snd line_holding portfolio_holdings metal_prices].
  destruct (PrimFloat.ltb 0%float (get inputs gold)) eqn:Eg;
    destruct (PrimFloat.ltb 0%float (get inputs silver)) eqn:Es;
    destruct (PrimFloat.ltb 0%float (get inputs platinum)) eqn:Ept;
    destruct (PrimFloat.ltb 0%float (get inputs palladium)) eqn:Epd;
    cbn [fst snd List.length].
  all: split; [reflexivity|].
  all: split;
    [split;
     [try discriminate; intros _ m; destruct m; assumption
     |intros H; try reflexivity;
      pose proof (H gold); pose proof (H silver);
      pose proof (H platinum); pose proof (H palladium); congruence]
    |].
  all: try exact I.
  all: split; [lia|].
  all: split;
    [|rewrite calculate_portfolio_value_eq; unfold metals;
      cbn [map filter line_holding portfolio_holdings metal_prices];
      rewrite Eg, Es, Ept, Epd; reflexivity].
  all: repeat (apply Forall_cons; [split; [assumption | reflexivity]|]).
  all: apply Forall_nil.
Qed.

(** ** Dates in the export *)

Lemma chars_app (s1 s2 : string) :
  list_ascii_of_string (s1 ++ s2)%string
  = list_ascii_of_string s1 ++ list_ascii_of_string s2.
Proof. induction s1 as [|c s1 IH]; simpl; [reflexivity | now rewrite IH]. Qed.

Lemma zeros_no_dash (k : nat) :
  ~ In "-"%char (list_ascii_of_string (zeros k)).
Proof.
  induction k as [|k IH]; simpl; [tauto|].
  intros [H | H]; [discriminate | auto].
Qed.

Lemma digits_no_dash (d : Decimal.uint) :
  ~ In "-"%char (list_ascii_of_string (NilEmpty.string_of_uint d)).
Proof.
  induction d; simpl; try tauto; intros [H | H]; (discriminate || auto).
Qed.

Lemma zfill_no_dash (w n : nat) :
  ~ In "-"%char (list_ascii_of_string (zfill w n)).
Proof.
  unfold zfill. cbv zeta. rewrite chars_app. intros H.
  apply in_app_or in H. destruct H as [H | H];
    [exact (zeros_no_dash _ H)|].
  destruct (Nat.to_uint n); simpl in H;
    (destruct H as [H | H];
     [discriminate | solve [destruct H | exact (digits_no_dash _ H)]]).
Qed.

Lemma split_at_dash (s1 : string) :
  forall s2 r1 r2 : string,
    ~ In "-"%char (list_ascii_of_string s1) ->
    ~ In "-"%char (list_ascii_of_string s2) ->
    (s1 ++ String "-" r1)%string = (s2 ++ String "-" r2)%string ->
    s1 = s2 /\ r1 = r2.
Proof.
  induction s1 as [|a s1 IH]; intros [|c s2] r1 r2 H1 H2 E; simpl in *.
  - injection E as ->. now split.
  - injection E as Ec Er. exfalso. apply H2. left. congruence.
  - injection E as Ea Er. exfalso. apply H1. left. congruence.
  - injection E as Ea Er. subst c.
    destruct (IH s2 r1 r2) as [-> ->]; [tauto | tauto | assumption|].
    now split.
Qed.

Lemma uint_of_zeros (k : nat) (s : string) (d : Decimal.uint) :
  NilEmpty.uint_of_string s = Some d ->
  exists d' : Decimal.uint,
    NilEmpty.uint_of_string (zeros k ++ s)%string = Some d'
    /\ Nat.of_uint d' = Nat.of_uint d.
Proof.
  intros H. induction k as [|k IH].
  - exists d. now split.
  - destruct IH as (d' & E & V). exists (Decimal.D0 d'). split.
    + cbn [zeros append NilEmpty.uint_of_string]. rewrite E. reflexivity.
    + rewrite <- V. reflexivity.
Qed.

Lemma zfill_value (w n : nat) :
  exists d : Decimal.uint,
    NilEmpty.uint_of_string (zfill w n) = Some d /\ Nat.of_uint d = n.
Proof.
  unfold zfill. cbv zeta.
  assert (H0 : exists d0 : Decimal.uint,
             NilEmpty.uint_of_string
               (NilZero.string_of_uint (Nat.to_uint n)) = Some d0
             /\ Nat.of_uint d0 = n).
  { pose proof (DecimalNat.Unsigned.of_to n) as Hn.
    destruct (Nat.to_uint n) as [|u|u|u|u|u|u|u|u|u|u].
    - exists (Decimal.D0 Decimal.Nil). split; [reflexivity | exact Hn].
    - eexists; split; [exact (NilEmpty.usu _) | exact Hn].
    - eexists; split; [exact (NilEmpty.usu _) | exact Hn].
    - eexists; split; [exact (NilEmpty.usu _) | exact Hn].
    - eexists; split; [exact (NilEmpty.usu _) | exact Hn].
    - eexists; split; [exact (NilEmpty.usu _) | exact Hn].
    - eexists; split; [exact (NilEmpty.usu _) | exact Hn].
    - eexists; split; [exact (NilEmpty.usu _) | exact Hn].
    - eexists; split; [exact (NilEmpty.usu _) | exact Hn].
    - eexists; split; [exact (NilEmpty.usu _) | exact Hn].
    - eexists; split; [exact (NilEmpty.usu _) | exact Hn]. }
  destruct H0 as (d0 & E0 & V0).
  destruct (uint_of_zeros
              (w - String.length (NilZero.string_of_uint (Nat.to_uint n)))
              _ _ E0) as (d' & E & V).
  exists d'. split; [exact E | congruence].
Qed.

Lemma zfill_inj (w a b : nat) : zfill w a = zfill w b -> a = b.
Proof.
  intros E.
  destruct (zfill_value w a) as (da & Ea & Va).
  destruct (zfill_value w b) as (db & Eb & Vb).
  rewrite E in Ea. rewrite Ea in Eb. injection Eb as ->. congruence.
Qed.

Lemma isoformat_inj (d1 d2 : Date) : isoformat d1 = isoformat d2 -> d1 = d2.
Proof.
  destruct d1 as [y1 m1 x1], d2 as [y2 m2 x2].
  unfold isoformat. cbn [year month day]. intros E.
  assert (Hd : forall x : string, ("-" ++ x)%string = String "-" x)
    by reflexivity.
  rewrite !Hd in E.
  apply split_at_dash in E; try apply zfill_no_dash.
  destruct E as [Ey E].
  apply split_at_dash in E; try apply zfill_no_dash.
  destruct E as [Em Ex].
  apply zfill_inj in Ey, Em, Ex. now subst.
Qed.

Lemma NoDup_map_injective {A B : Type} (f : A -> B) (l : list A) :
  (forall x y : A, f x = f y -> x = y) -> NoDup l -> NoDup (map f l).
Proof.
  intros Hinj. induction 1 as [|a l Ha Hl IH]; simpl; constructor.
  - intros Hin. apply in_map_iff in Hin. destruct Hin as (x & Hx & Hin).
    apply Hinj in Hx. now subst.
  - assumption.
Qed.

(** X13. Dates are written to the export without loss: two dates with the
    same text [YYYY-MM-DD] are the same date.  Hence, in every state of
    every session, the date fields of the exported rows are pairwise
    distinct. *)
Theorem export_date_fields_distinct :
  (forall d1 d2 : Date, isoformat d1 = isoformat d2 -> d1 = d2)
  /\ (forall (parser : string -> result float) (now : Date)
             (actions : list Action),
         NoDup (map (fun r => isoformat (date r))
                    (price_history (run parser now actions)))).
Proof.
  split; [exact isoformat_inj|].
  intros parser now actions.
  rewrite <- (map_map date isoformat).
  apply NoDup_map_injective; [exact isoformat_inj|].
  apply run_NoDup.
Qed.

Lemma export_date_fields_distinct_witness :
  isoformat (mkDate 2024 1 2) = "2024-01-02"
  /\ mkDate 2024 1 2 = jan2.
Proof.
  assert (H : isoformat (mkDate 2024 1 2) = isoformat jan2) by reflexivity.
  split; [reflexivity|].
  exact (proj1 export_date_fields_distinct _ _ H).
Defined.

(** ** The write-back of the number inputs *)

Lemma upload_outcome_frame (parser : string -> result float)
    (file : result DataFrame) (st : State) :
  price_history (fst (handle_upload parser (Some file) st)) = price_history st
  /\ portfolio_holdings (fst (handle_upload parser (Some file) st))
     = portfolio_holdings st.
Proof.
  unfold handle_upload.
  destruct (load_prices_from_excel parser file) as [prices error].
  destruct prices as [[|kv p]|]; simpl; try (split; reflexivity);
    destruct error as [[|c e]|]; split; reflexivity.
Qed.

(** X14. The four assignments that write the number inputs back replace all
    four prices: after them the price store holds the inputs, whatever the
    upload block merged earlier in the same pass, and the history and the
    holdings are those of before the upload. *)
Theorem write_back_overrides_upload
    (parser : string -> result float)
    (uploaded_file : option (result DataFrame))
    (inputs : Prices) (st : State) :
  write_back inputs (fst (handle_upload parser uploaded_file st))
  = mkState inputs (price_history st) (portfolio_holdings st).
Proof.
  unfold write_back. rewrite set_all.
  destruct uploaded_file as [file|]; [|reflexivity].
  destruct (upload_outcome_frame parser file st) as [Hh Hp].
  now rewrite Hh, Hp.
Qed.
